(** * Agent routing logic of SYSTEM-ROUTING-LOGIC.md

    A shallow embedding of the router, the prerequisite and completion
    verifiers and the conflict-prevention hooks that the document gives
    as Python, followed by the properties of the natural-language
    specification that concern them.

    Conventions of the embedding:
    - a Python [str] is a [string], that is the sequence of the bytes of
      its UTF-8 encoding.  Substring search, [==] and [endswith] agree on
      code points and on UTF-8 bytes, because UTF-8 is
      self-synchronising;
    - a dict literal with a fixed set of keys that is only read
      ([check_existing_files]) is a record; a dict that is iterated
      (the signature tables) is an association list in insertion order;
      the [METRICS] table and the request context are [gmap]s;
    - [raise Error(msg)] is the [Raise msg] constructor of [result];
      [print] appends to an explicit output list;
    - the helpers the document calls without defining them ([exists],
      [read_file], [extract_feature_path], [needs_ui_changes],
      [extract_function_signatures]) are section variables. *)

From Stdlib Require Import ZArith Lia Bool.
From stdpp Require Import gmap strings list fin_maps.

Local Open Scope string_scope.
Local Open Scope list_scope.

(** ** Python string primitives *)

(** [needle in hay] on strings. *)
Fixpoint contains (needle hay : string) : bool :=
  String.prefix needle hay ||
  match hay with
  | EmptyString => false
  | String _ rest => contains needle rest
  end.

(** [s.endswith(suffix)]. *)
Definition endswith (s suffix : string) : bool :=
  let n := String.length s in
  let m := String.length suffix in
  (m <=? n)%nat && String.eqb (String.substring (n - m) m s) suffix.

(** The line feed of the f-strings. *)
Definition nl : string := String (Ascii.ascii_of_nat 10) EmptyString.

(** [sep.join(items)]. *)
Definition join (sep : string) (items : list string) : string :=
  String.concat sep items.

(** [raise Error(msg)] against a normal return. *)
Inductive result (A : Type) : Type :=
| Ok (a : A)
| Raise (msg : string).
Arguments Ok {A} a.
Arguments Raise {A} msg.

(** ** The router *)

(** The dict returned by [check_existing_files]. *)
Record FilesExist : Type := {
  types_exists : bool;
  api_exists : bool;
  components_exist : bool;
  ui_complete : bool
}.

(** [AgentRouter.classify_request]. *)
Definition ui_keywords : list string :=
  ["UI"; "디자인"; "레이아웃"; "컴포넌트"; "화면"].
Definition backend_keywords : list string :=
  ["Supabase"; "API"; "로직"; "데이터베이스"; "쿼리"].

Definition classify_request (message : string) : string :=
  let has_ui := existsb (fun kw => contains kw message) ui_keywords in
  let has_backend := existsb (fun kw => contains kw message) backend_keywords in
  if has_ui && negb has_backend then "ui_only"
  else if has_backend && negb has_ui then "backend_only"
  else if contains "수정" message || contains "추가" message then "modify_existing"
  else "full_feature".

Section Router.

(** The file system as the router and the hooks see it, and the helpers
    the document leaves undefined. *)
Variable exists_ : string -> bool.
Variable read_file : string -> string.
Variable extract_feature_path : string -> gmap string string -> string.
Variable needs_ui_changes : string -> bool.

(** [AgentRouter.check_existing_files]. *)
Definition check_existing_files (feature_path : string) : FilesExist :=
  {| types_exists := exists_ (feature_path +:+ "/types.ts");
     api_exists := exists_ (feature_path +:+ "/api.ts");
     components_exist := exists_ (feature_path +:+ "/components/");
     ui_complete :=
       exists_ (feature_path +:+ "/types.ts") &&
       exists_ (feature_path +:+ "/api.ts") &&
       exists_ (feature_path +:+ "/components/") |}.

(** [AgentRouter.route_request]. *)
Definition route_request (user_message : string)
    (context : gmap string string) : string :=
  let request_type := classify_request user_message in
  let feature_path := extract_feature_path user_message context in
  let files_exist := check_existing_files feature_path in
  if String.eqb request_type "full_feature" then
    if negb (ui_complete files_exist) then "ui-implementer"
    else "feature-logic-implementer"
  else if String.eqb request_type "ui_only" then
    "ui-implementer"
  else if String.eqb request_type "backend_only" then
    if negb (ui_complete files_exist) then "error:missing_ui_foundation"
    else "feature-logic-implementer"
  else if String.eqb request_type "modify_existing" then
    if needs_ui_changes user_message then "ui-implementer"
    else "feature-logic-implementer"
  else
    "ui-implementer".

(** Whether the three foundation files of the request's feature exist,
    the [files_exist["ui_complete"]] of [route_request]. *)
Definition foundation_complete (message : string)
    (context : gmap string string) : bool :=
  ui_complete
    (check_existing_files (extract_feature_path message context)).

(** The outcomes of [route_request]: an [error] string blocks the
    request, the two agent names assign it. *)
Definition is_blocked (decision : string) : bool :=
  String.prefix "error" decision.

(** ** Prerequisite and completion verification *)

(** The list [missing] that [verify_prerequisites] builds. *)
Definition missing_prerequisites (files : FilesExist) : list string :=
  let missing := [] in
  let missing :=
    if negb (types_exists files) then missing ++ ["types.ts"] else missing in
  let missing :=
    if negb (api_exists files) then missing ++ ["api.ts"] else missing in
  let missing :=
    if negb (components_exist files) then missing ++ ["components/"]
    else missing in
  missing.

Definition prerequisites_error (missing : list string) : string :=
  "Cannot run feature-logic-implementer. Missing files:" +:+ nl +:+
  join ", " missing +:+ nl +:+ nl +:+
  "Please run ui-implementer first to create the foundation.".

(** [AgentRouter.verify_prerequisites]. *)
Definition verify_prerequisites (agent feature_path : string)
    : bool * string :=
  if String.eqb agent "feature-logic-implementer" then
    let files := check_existing_files feature_path in
    if negb (ui_complete files) then
      (false, prerequisites_error (missing_prerequisites files))
    else (true, "")
  else (true, "").

Definition integration_marker : string := "🔌 INTEGRATION POINT".

(** [verify_ui_completion]. *)
Definition verify_ui_completion (feature_path : string)
    : bool * list string :=
  let missing := [] in
  let missing :=
    if negb (exists_ (feature_path +:+ "/types.ts"))
    then missing ++ ["types.ts"] else missing in
  let missing :=
    if negb (exists_ (feature_path +:+ "/api.ts"))
    then missing ++ ["api.ts"] else missing in
  let missing :=
    if negb (exists_ (feature_path +:+ "/components/"))
    then missing ++ ["components/"] else missing in
  let missing :=
    if exists_ (feature_path +:+ "/api.ts") then
      let content := read_file (feature_path +:+ "/api.ts") in
      if negb (contains integration_marker content)
      then missing ++ ["api.ts (missing TODO markers)"] else missing
    else missing in
  (Nat.eqb (length missing) 0, missing).

Definition completion_error (missing : list string) : string :=
  "Cannot complete task. Missing required files:" +:+ nl +:+
  join ", " missing +:+ nl +:+ nl +:+
  "You must create all mandatory files before completing.".

(** [AgentRouter.verify_completion]. *)
Definition verify_completion (agent feature_path : string)
    : bool * string :=
  if String.eqb agent "ui-implementer" then
    let (is_complete, missing) := verify_ui_completion feature_path in
    if negb is_complete then (false, completion_error missing)
    else (true, "")
  else (true, "").

(** ** Conflict prevention *)

Definition forbidden_create_api : string :=
  "FORBIDDEN: feature-logic-implementer cannot create api.ts. " +:+
  "This file already exists and should only be modified, not replaced.".

Definition warning_extend_types : string :=
  "WARNING: Extending existing types.ts. Do not delete existing types.".

(** [before_create_file]: [Raise] when the hook raises, otherwise [Ok]
    with the lines it printed. *)
Definition before_create_file (agent file_path : string)
    : result (list string) :=
  let stdout := [] in
  let raised :=
    if endswith file_path "api.ts" then
      if exists_ file_path then
        if String.eqb agent "feature-logic-implementer"
        then Some forbidden_create_api else None
      else None
    else None in
  match raised with
  | Some msg => Raise msg
  | None =>
      let stdout :=
        if endswith file_path "types.ts" then
          if exists_ file_path then
            if String.eqb agent "feature-logic-implementer"
            then stdout ++ [warning_extend_types] else stdout
          else stdout
        else stdout in
      Ok stdout
  end.

End Router.

(** *** Signature tables *)

(** The dict of [extract_function_signatures]: function name to
    signature text, in insertion order. *)
Definition signatures : Type := list (string * string).

(** [d.get(k)], also the test [k in d] and the subscript [d[k]]. *)
Fixpoint dict_get (d : signatures) (k : string) : option string :=
  match d with
  | [] => None
  | (k', v) :: rest => if String.eqb k' k then Some v else dict_get rest k
  end.

Definition dict_keys (d : signatures) : list string := map fst d.

Definition removed_error (func_name : string) : string :=
  "Function " +:+ func_name +:+ " was removed from api.ts".

Definition changed_error (func_name original modified : string) : string :=
  "Function signature changed: " +:+ func_name +:+ nl +:+
  "Original: " +:+ original +:+ nl +:+
  "Modified: " +:+ modified +:+ nl +:+
  "FORBIDDEN: You must keep the exact signature that UI expects.".

(** The loop of [verify_api_signature_unchanged] over the names still to
    be visited. *)
Fixpoint check_signatures (names : list string)
    (original_signatures modified_signatures : signatures) : result unit :=
  match names with
  | [] => Ok tt
  | func_name :: rest =>
      match dict_get modified_signatures func_name with
      | None => Raise (removed_error func_name)
      | Some modified =>
          match dict_get original_signatures func_name with
          | None => Raise ("KeyError: " +:+ func_name)
          | Some original =>
              if negb (String.eqb original modified)
              then Raise (changed_error func_name original modified)
              else check_signatures rest original_signatures
                     modified_signatures
          end
      end
  end.

Section Signatures.

Variable extract_function_signatures : string -> signatures.

(** [verify_api_signature_unchanged]. *)
Definition verify_api_signature_unchanged (original_api modified_api : string)
    : result unit :=
  let original_signatures := extract_function_signatures original_api in
  let modified_signatures := extract_function_signatures modified_api in
  check_signatures (dict_keys original_signatures)
    original_signatures modified_signatures.

End Signatures.

(** ** Metrics *)

(** The [METRICS] table. *)
Definition METRICS : gmap string Z :=
  list_to_map
    [("total_requests", 0%Z);
     ("routed_to_ui", 0%Z);
     ("routed_to_backend", 0%Z);
     ("blocked_missing_prerequisites", 0%Z);
     ("blocked_incomplete_ui", 0%Z);
     ("blocked_file_conflicts", 0%Z);
     ("successful_collaborations", 0%Z)].

(** The counters that record where a request went. *)
Definition routing_counters : list string :=
  ["routed_to_ui"; "routed_to_backend"; "blocked_missing_prerequisites";
   "blocked_incomplete_ui"; "blocked_file_conflicts"].

(** [metrics[key] += 1]. *)
Definition increment (key : string) (metrics : gmap string Z)
    : gmap string Z :=
  <[key := (metrics !!! key + 1)%Z]> metrics.

(** Modelled from the spec: the counter that corresponds to a decision of
    [route_request].  The bookkeeping code (the orchestrator of main.py and
    the collector of monitoring.py) is missing from the sources; the
    specification says that every decision increments the corresponding
    counter: an assignment to the producer counts as [routed_to_ui], an
    assignment to the implementer as [routed_to_backend], a blocked
    request as [blocked_missing_prerequisites]. *)
Definition counter_of (decision : string) : option string :=
  if String.eqb decision "ui-implementer" then Some "routed_to_ui"
  else if String.eqb decision "feature-logic-implementer"
  then Some "routed_to_backend"
  else if String.prefix "error:" decision
  then Some "blocked_missing_prerequisites"
  else None.

(** Modelled from the spec: [route], that is [route_request] followed by
    the bookkeeping that is missing from the sources.  The metrics are
    passed in and returned; [total_requests] is incremented whatever the
    decision, and so is the counter of the decision. *)
Definition route (exists_ : string -> bool)
    (extract_feature_path : string -> gmap string string -> string)
    (needs_ui_changes : string -> bool)
    (metrics : gmap string Z)
    (user_message : string) (context : gmap string string)
    : string * gmap string Z :=
  let decision :=
    route_request exists_ extract_feature_path needs_ui_changes
      user_message context in
  let metrics := increment "total_requests" metrics in
  let metrics :=
    match counter_of decision with
    | Some key => increment key metrics
    | None => metrics
    end in
  (decision, metrics).

(** A request together with the file system at the time it is routed. *)
Record Call : Type := {
  call_exists : string -> bool;
  call_message : string;
  call_context : gmap string string
}.

(** Modelled from the spec: a sequence of calls to [route], threading
    the metrics. *)
Fixpoint route_all
    (extract_feature_path : string -> gmap string string -> string)
    (needs_ui_changes : string -> bool)
    (metrics : gmap string Z) (calls : list Call) : gmap string Z :=
  match calls with
  | [] => metrics
  | c :: rest =>
      route_all extract_feature_path needs_ui_changes
        (snd (route (call_exists c) extract_feature_path needs_ui_changes
                metrics (call_message c) (call_context c)))
        rest
  end.

(** ** The remaining rules and hooks *)

(** The locals [has_ui] and [has_backend] of [classify_request], and its
    test for a modification marker. *)
Definition has_ui (message : string) : bool :=
  existsb (fun kw => contains kw message) ui_keywords.
Definition has_backend (message : string) : bool :=
  existsb (fun kw => contains kw message) backend_keywords.
Definition has_modify_marker (message : string) : bool :=
  contains "수정" message || contains "추가" message.

Section Hooks.

Variable exists_ : string -> bool.

(** The loop of [can_run_feature_logic_implementer]: [False] at the first
    file that does not exist. *)
Fixpoint all_required_exist (required_files : list string) : bool :=
  match required_files with
  | [] => true
  | file :: rest =>
      if negb (exists_ file) then false else all_required_exist rest
  end.

(** [can_run_feature_logic_implementer]. *)
Definition can_run_feature_logic_implementer (feature_path : string) : bool :=
  let required_files :=
    [feature_path +:+ "/types.ts";
     feature_path +:+ "/api.ts";
     feature_path +:+ "/components/"] in
  all_required_exist required_files.

End Hooks.

Definition ui_directories : list string :=
  ["/components/"; "/page.tsx"; "/layout.tsx"].

Definition forbidden_modify (file_path : string) : string :=
  "FORBIDDEN: feature-logic-implementer cannot modify " +:+ file_path +:+
  ". " +:+
  "This is UI territory. Request ui-implementer to make changes.".

(** The loop of [before_modify_file] over the directories still to be
    tried. *)
Fixpoint scan_ui_directories (dirs : list string) (file_path : string)
    : result unit :=
  match dirs with
  | [] => Ok tt
  | ui_dir :: rest =>
      if contains ui_dir file_path then Raise (forbidden_modify file_path)
      else scan_ui_directories rest file_path
  end.

(** [before_modify_file]. *)
Definition before_modify_file (agent file_path : string) : result unit :=
  if String.eqb agent "feature-logic-implementer" then
    scan_ui_directories ui_directories file_path
  else Ok tt.

(** ** Concrete file systems and requests *)

Definition no_files : string -> bool := fun _ => false.
Definition all_files : string -> bool := fun _ => true.

(** A feature path taken from the [current_path] entry of the context. *)
Definition path_of_context (message : string)
    (context : gmap string string) : string :=
  default "app" (context !! "current_path").

Definition never_ui_changes : string -> bool := fun _ => false.

Definition time_slots : gmap string string :=
  {["current_path" := "app/time-slots"]}.

(** Only types.ts of app/auth has been created. *)
Definition only_types : string -> bool :=
  fun path => String.eqb path "app/auth/types.ts".

(** Contents of api.ts with and without the integration-point marker. *)
Definition api_with_marker : string -> string :=
  fun _ => "export async function getTimeSlots() { /* 🔌 INTEGRATION POINT */ }".
Definition api_without_marker : string -> string :=
  fun _ => "export async function getTimeSlots() { return []; }".

(** Signature tables of three versions of an api.ts: the original, one
    with the same functions in another order, one with a function
    added. *)
Definition api_versions (api : string) : signatures :=
  if String.eqb api "original" then
    [("getTimeSlots", "(): Promise<TimeSlot[]>");
     ("createTimeSlot", "(input: TimeSlotInput): Promise<TimeSlot>")]
  else if String.eqb api "reordered" then
    [("createTimeSlot", "(input: TimeSlotInput): Promise<TimeSlot>");
     ("getTimeSlots", "(): Promise<TimeSlot[]>")]
  else if String.eqb api "extended" then
    [("getTimeSlots", "(): Promise<TimeSlot[]>");
     ("createTimeSlot", "(input: TimeSlotInput): Promise<TimeSlot>");
     ("deleteTimeSlot", "(id: string): Promise<void>")]
  else [].

(** Only the foundation of app/auth has been created. *)
Definition only_auth : string -> bool :=
  fun path =>
    String.eqb path "app/auth/types.ts" ||
    String.eqb path "app/auth/api.ts" ||
    String.eqb path "app/auth/components/".

(** The foundation of app/auth and, besides, that of app/time-slots. *)
Definition auth_and_time_slots : string -> bool :=
  fun path => only_auth path || String.prefix "app/time-slots/" path.

Definition auth : gmap string string := {["current_path" := "app/auth"]}.

(** Two further versions: one that changes the parameters of
    [createTimeSlot], one that renames [getTimeSlots]. *)
Definition api_revisions (api : string) : signatures :=
  if String.eqb api "retyped" then
    [("getTimeSlots", "(): Promise<TimeSlot[]>");
     ("createTimeSlot", "(title: string, duration: number): Promise<TimeSlot>")]
  else if String.eqb api "renamed" then
    [("listTimeSlots", "(): Promise<TimeSlot[]>");
     ("createTimeSlot", "(input: TimeSlotInput): Promise<TimeSlot>")]
  else api_versions api.

(** * Properties *)

(** ** Classification and routing *)

Lemma classify_request_range message :
  classify_request message = "ui_only" \/
  classify_request message = "backend_only" \/
  classify_request message = "modify_existing" \/
  classify_request message = "full_feature".
Proof.
  unfold classify_request.
  destruct (existsb _ ui_keywords), (existsb _ backend_keywords),
    (contains "수정" message || contains "추가" message); cbn; auto.
Qed.

Section RouterProperties.

Variable exists_ : string -> bool.
Variable extract_feature_path : string -> gmap string string -> string.
Variable needs_ui_changes : string -> bool.

Ltac route_by Hc :=
  unfold route_request, foundation_complete; rewrite Hc; cbn [String.eqb];
  try destruct (ui_complete _); try destruct (needs_ui_changes _);
  reflexivity.

Lemma route_full_feature message context :
  classify_request message = "full_feature" ->
  route_request exists_ extract_feature_path needs_ui_changes
    message context =
    if foundation_complete exists_ extract_feature_path message context
    then "feature-logic-implementer" else "ui-implementer".
Proof. intros Hc. route_by Hc. Qed.

Lemma route_backend_only message context :
  classify_request message = "backend_only" ->
  route_request exists_ extract_feature_path needs_ui_changes
    message context =
    if foundation_complete exists_ extract_feature_path message context
    then "feature-logic-implementer" else "error:missing_ui_foundation".
Proof. intros Hc. route_by Hc. Qed.

Lemma route_ui_only message context :
  classify_request message = "ui_only" ->
  route_request exists_ extract_feature_path needs_ui_changes
    message context = "ui-implementer".
Proof. intros Hc. route_by Hc. Qed.

Lemma route_modify_existing message context :
  classify_request message = "modify_existing" ->
  route_request exists_ extract_feature_path needs_ui_changes
    message context =
    if needs_ui_changes message
    then "ui-implementer" else "feature-logic-implementer".
Proof. intros Hc. route_by Hc. Qed.

(** The router answers with one of three strings. *)
Lemma route_request_range message context :
  let decision :=
    route_request exists_ extract_feature_path needs_ui_changes
      message context in
  decision = "ui-implementer" \/
  decision = "feature-logic-implementer" \/
  decision = "error:missing_ui_foundation".
Proof.
  cbn zeta.
  destruct (classify_request_range message) as [Hc | [Hc | [Hc | Hc]]].
  - rewrite (route_ui_only _ _ Hc). auto.
  - rewrite (route_backend_only _ _ Hc).
    destruct (foundation_complete _ _); auto.
  - rewrite (route_modify_existing _ _ Hc).
    destruct (needs_ui_changes _); auto.
  - rewrite (route_full_feature _ _ Hc).
    destruct (foundation_complete _ _); auto.
Qed.

(** C8: a request classified [ui_only] is routed to ui-implementer
    whatever files exist, be the foundation complete or the feature
    directory absent altogether. *)
Theorem route_ui_only_always_producer message context :
  classify_request message = "ui_only" ->
  route_request exists_ extract_feature_path needs_ui_changes
    message context = "ui-implementer".
Proof. exact (route_ui_only message context). Qed.

(** The router's test of the foundation is the conjunction of the three
    file tests on the feature path of the request. *)
Lemma foundation_complete_paths message context :
  foundation_complete exists_ extract_feature_path message context =
    exists_ (extract_feature_path message context +:+ "/types.ts") &&
    exists_ (extract_feature_path message context +:+ "/api.ts") &&
    exists_ (extract_feature_path message context +:+ "/components/").
Proof. reflexivity. Qed.

(** C10: the router blocks a request exactly when it is classified
    [backend_only] and one of types.ts, api.ts and components/ does not
    exist under the feature path of the request; a request of any other
    class is assigned to one of the two agents. *)
Theorem route_blocked_iff_backend_without_foundation message context :
  let decision :=
    route_request exists_ extract_feature_path needs_ui_changes
      message context in
  let feature_path := extract_feature_path message context in
  (is_blocked decision = true <->
     classify_request message = "backend_only" /\
     exists_ (feature_path +:+ "/types.ts") &&
     exists_ (feature_path +:+ "/api.ts") &&
     exists_ (feature_path +:+ "/components/") = false) /\
  (classify_request message <> "backend_only" ->
     is_blocked decision = false /\
     (decision = "ui-implementer" \/
      decision = "feature-logic-implementer")).
Proof.
  cbn zeta. rewrite <- foundation_complete_paths.
  destruct (classify_request_range message) as [Hc | [Hc | [Hc | Hc]]].
  - rewrite (route_ui_only _ _ Hc), Hc. cbn.
    repeat split; auto; try discriminate. intros [? _]; discriminate.
  - rewrite (route_backend_only _ _ Hc), Hc.
    destruct (foundation_complete _ _); cbn;
      repeat split; auto; try discriminate; try tauto.
    intros [_ ?]; discriminate.
  - rewrite (route_modify_existing _ _ Hc), Hc.
    destruct (needs_ui_changes _); cbn;
      repeat split; auto; try discriminate; intros [? _]; discriminate.
  - rewrite (route_full_feature _ _ Hc), Hc.
    destruct (foundation_complete _ _); cbn;
      repeat split; auto; try discriminate; intros [? _]; discriminate.
Qed.

(** C5, as the router has it: the empty message is classified
    [full_feature] and routed like any other full feature request, to
    ui-implementer while the foundation is incomplete and to
    feature-logic-implementer once it is complete; it is never
    blocked. *)
Theorem route_empty_message context :
  let decision :=
    route_request exists_ extract_feature_path needs_ui_changes
      "" context in
  classify_request "" = "full_feature" /\
  decision =
    (if foundation_complete exists_ extract_feature_path "" context
     then "feature-logic-implementer" else "ui-implementer") /\
  is_blocked decision = false.
Proof.
  cbn zeta.
  assert (Hc : classify_request "" = "full_feature") by reflexivity.
  rewrite (route_full_feature _ _ Hc).
  destruct (foundation_complete _ _); auto.
Qed.

End RouterProperties.

(** ** Routing at concrete requests *)

(** A [ui_only] request with every file present, and with none. *)
Lemma route_ui_only_always_producer_witness :
  route_request all_files path_of_context never_ui_changes
    "로그인 폼 UI만 만들어줘" time_slots = "ui-implementer" /\
  route_request no_files path_of_context never_ui_changes
    "로그인 폼 UI만 만들어줘" ∅ = "ui-implementer".
Proof.
  split; apply route_ui_only_always_producer; reflexivity.
Defined.

(** A backend request without foundation is blocked; a full feature
    request without foundation is not. *)
Lemma route_blocked_iff_backend_without_foundation_witness :
  is_blocked
    (route_request no_files path_of_context never_ui_changes
       "Supabase 쿼리 구현해줘" time_slots) = true /\
  is_blocked
    (route_request no_files path_of_context never_ui_changes
       "시간 거래 기능 만들어줘" time_slots) = false.
Proof.
  split.
  - apply (proj1 (route_blocked_iff_backend_without_foundation
                    no_files path_of_context never_ui_changes
                    "Supabase 쿼리 구현해줘" time_slots)).
    split; reflexivity.
  - apply (proj2 (route_blocked_iff_backend_without_foundation
                    no_files path_of_context never_ui_changes
                    "시간 거래 기능 만들어줘" time_slots)).
    vm_compute. discriminate.
Defined.

(** C1: the router falls short of the specification on a [modify_existing]
    request that needs no interface change while none of types.ts,
    api.ts and components/ exists: it answers
    feature-logic-implementer, although the branches for [full_feature]
    and [backend_only] test the foundation first and the prerequisite
    tests of that agent fail on the same feature. *)
Theorem route_modify_existing_without_foundation :
  classify_request "시간 거래 수정 기능 추가해줘" = "modify_existing" /\
  never_ui_changes "시간 거래 수정 기능 추가해줘" = false /\
  path_of_context "시간 거래 수정 기능 추가해줘" time_slots = "app/time-slots" /\
  no_files "app/time-slots/types.ts" = false /\
  no_files "app/time-slots/api.ts" = false /\
  no_files "app/time-slots/components/" = false /\
  route_request no_files path_of_context never_ui_changes
    "시간 거래 수정 기능 추가해줘" time_slots = "feature-logic-implementer" /\
  route_request no_files path_of_context never_ui_changes
    "시간 거래 수정 기능 추가해줘" time_slots <> "ui-implementer" /\
  can_run_feature_logic_implementer no_files "app/time-slots" = false /\
  fst (verify_prerequisites no_files "feature-logic-implementer"
         "app/time-slots") = false.
Proof. repeat split; try reflexivity. vm_compute. discriminate. Qed.

(** C5 refuted as stated: the empty message is not rejected; with no
    foundation file present it is routed to ui-implementer under the
    default class [full_feature]. *)
Lemma route_empty_message_counterexample :
  classify_request "" = "full_feature" /\
  route_request no_files path_of_context never_ui_changes "" ∅
    = "ui-implementer" /\
  is_blocked
    (route_request no_files path_of_context never_ui_changes "" ∅) = false.
Proof. repeat split; reflexivity. Qed.

(** ** Prerequisite and completion verification *)

Section VerifierProperties.

Variable exists_ : string -> bool.
Variable read_file : string -> string.

(** The names in [missing] are those of the absent files, in the order
    types.ts, api.ts, components/, each at most once. *)
Lemma missing_prerequisites_exact (files : FilesExist) (name : string) :
  In name (missing_prerequisites files) <->
    (name = "types.ts" /\ types_exists files = false) \/
    (name = "api.ts" /\ api_exists files = false) \/
    (name = "components/" /\ components_exist files = false).
Proof.
  unfold missing_prerequisites.
  destruct (types_exists files), (api_exists files), (components_exist files);
    cbn; (split;
      [ intros H; repeat (destruct H as [<- | H]; [tauto |]); destruct H
      | intros [[-> H] | [[-> H] | [-> H]]]; try discriminate H; tauto ]).
Qed.

Lemma missing_prerequisites_NoDup (files : FilesExist) :
  NoDup (missing_prerequisites files).
Proof.
  unfold missing_prerequisites.
  destruct (types_exists files), (api_exists files), (components_exist files);
    compute_done.
Qed.

(** C3: when one of types.ts, api.ts and components/ does not exist
    under the feature path, [verify_prerequisites] fails for
    feature-logic-implementer and the files its message reports as
    missing are exactly those that do not exist, each once; for
    ui-implementer it succeeds whatever exists. *)
Theorem verify_prerequisites_reports_exactly_missing feature_path :
  let types := exists_ (feature_path +:+ "/types.ts") in
  let api := exists_ (feature_path +:+ "/api.ts") in
  let components := exists_ (feature_path +:+ "/components/") in
  let missing :=
    (if types then [] else ["types.ts"]) ++
    (if api then [] else ["api.ts"]) ++
    (if components then [] else ["components/"]) in
  (types && api && components = false ->
   verify_prerequisites exists_ "feature-logic-implementer" feature_path =
     (false, prerequisites_error missing) /\
   (forall name, In name missing <->
      (name = "types.ts" /\ types = false) \/
      (name = "api.ts" /\ api = false) \/
      (name = "components/" /\ components = false)) /\
   NoDup missing /\
   contains "types.ts" (prerequisites_error missing) = negb types /\
   contains "api.ts" (prerequisites_error missing) = negb api /\
   contains "components/" (prerequisites_error missing)
     = negb components) /\
  verify_prerequisites exists_ "ui-implementer" feature_path = (true, "").
Proof.
  cbn zeta. split; [intros Hmiss | reflexivity].
  assert (Hlist :
    (if exists_ (feature_path +:+ "/types.ts") then [] else ["types.ts"]) ++
    (if exists_ (feature_path +:+ "/api.ts") then [] else ["api.ts"]) ++
    (if exists_ (feature_path +:+ "/components/") then []
     else ["components/"]) =
    missing_prerequisites (check_existing_files exists_ feature_path)).
  { unfold missing_prerequisites, check_existing_files.
    cbn [types_exists api_exists components_exist].
    destruct (exists_ (feature_path +:+ "/types.ts")),
      (exists_ (feature_path +:+ "/api.ts")),
      (exists_ (feature_path +:+ "/components/")); reflexivity. }
  rewrite Hlist.
  split; [| split; [apply missing_prerequisites_exact |
                    split; [apply missing_prerequisites_NoDup |]]];
    clear Hlist; revert Hmiss;
    unfold verify_prerequisites, missing_prerequisites, check_existing_files;
    simpl;
    destruct (exists_ (feature_path +:+ "/types.ts")),
      (exists_ (feature_path +:+ "/api.ts")),
      (exists_ (feature_path +:+ "/components/"));
    intros Hmiss; try discriminate Hmiss; vm_compute; auto.
Qed.

(** The flag of [verify_ui_completion] is the conjunction of its four
    tests. *)
Lemma verify_ui_completion_flag feature_path :
  fst (verify_ui_completion exists_ read_file feature_path) =
    exists_ (feature_path +:+ "/types.ts") &&
    exists_ (feature_path +:+ "/api.ts") &&
    exists_ (feature_path +:+ "/components/") &&
    contains integration_marker (read_file (feature_path +:+ "/api.ts")).
Proof.
  unfold verify_ui_completion.
  destruct (exists_ (feature_path +:+ "/types.ts")),
    (exists_ (feature_path +:+ "/api.ts")),
    (exists_ (feature_path +:+ "/components/")),
    (contains integration_marker (read_file (feature_path +:+ "/api.ts")));
    reflexivity.
Qed.

Lemma verify_completion_flag feature_path :
  fst (verify_completion exists_ read_file "ui-implementer" feature_path) =
    fst (verify_ui_completion exists_ read_file feature_path).
Proof.
  unfold verify_completion. cbn [String.eqb Ascii.eqb Bool.eqb].
  destruct (verify_ui_completion _ _ _) as [[|] missing]; reflexivity.
Qed.

(** C4: [verify_completion] succeeds for ui-implementer exactly when
    types.ts, api.ts and components/ exist and api.ts contains the
    integration-point marker; with the three files present and no marker
    it fails, reporting the missing markers. *)
Theorem verify_completion_producer_iff feature_path :
  (fst (verify_completion exists_ read_file "ui-implementer" feature_path)
     = true <->
   exists_ (feature_path +:+ "/types.ts") = true /\
   exists_ (feature_path +:+ "/api.ts") = true /\
   exists_ (feature_path +:+ "/components/") = true /\
   contains integration_marker (read_file (feature_path +:+ "/api.ts"))
     = true) /\
  (exists_ (feature_path +:+ "/types.ts") = true ->
   exists_ (feature_path +:+ "/api.ts") = true ->
   exists_ (feature_path +:+ "/components/") = true ->
   contains integration_marker (read_file (feature_path +:+ "/api.ts"))
     = false ->
   verify_completion exists_ read_file "ui-implementer" feature_path =
     (false, completion_error ["api.ts (missing TODO markers)"])).
Proof.
  split.
  - rewrite verify_completion_flag, verify_ui_completion_flag.
    rewrite !andb_true_iff. tauto.
  - intros Ht Ha Hc Hm.
    unfold verify_completion, verify_ui_completion.
    cbn [String.eqb Ascii.eqb Bool.eqb].
    rewrite Ht, Ha, Hc, Hm. reflexivity.
Qed.

End VerifierProperties.

(** Test case 3 of the document, seen from the implementer: only
    types.ts exists, api.ts and components/ are reported. *)
Lemma verify_prerequisites_reports_exactly_missing_witness :
  verify_prerequisites only_types "feature-logic-implementer" "app/auth" =
    (false, prerequisites_error ["api.ts"; "components/"]) /\
  contains "api.ts" (prerequisites_error ["api.ts"; "components/"]) = true /\
  contains "types.ts" (prerequisites_error ["api.ts"; "components/"]) = false.
Proof.
  pose proof (proj1 (verify_prerequisites_reports_exactly_missing
                       only_types "app/auth") eq_refl)
    as (Hv & _ & _ & Ht & Ha & _).
  exact (conj Hv (conj Ha Ht)).
Defined.

(** The three files exist; completion depends on the marker alone. *)
Lemma verify_completion_producer_iff_witness :
  fst (verify_completion all_files api_with_marker
         "ui-implementer" "app/time-slots") = true /\
  verify_completion all_files api_without_marker
    "ui-implementer" "app/time-slots" =
    (false, completion_error ["api.ts (missing TODO markers)"]).
Proof.
  split.
  - apply (proj1 (verify_completion_producer_iff all_files api_with_marker
                    "app/time-slots")).
    repeat split; reflexivity.
  - apply (proj2 (verify_completion_producer_iff all_files
                    api_without_marker "app/time-slots")); reflexivity.
Defined.

(** ** Conflict prevention: file creation *)

Lemma substring_all (s : string) :
  String.substring 0 (String.length s) s = s.
Proof. induction s as [| c s IH]; cbn; [reflexivity | now rewrite IH]. Qed.

Lemma substring_split (s : string) :
  forall k, (k <= String.length s)%nat ->
  s = String.substring 0 k s +:+
      String.substring k (String.length s - k) s.
Proof.
  induction s as [| c s IH]; intros [| k] Hk; cbn in *; try lia.
  - reflexivity.
  - now rewrite substring_all.
  - change (String c s =
            String c (String.substring 0 k s +:+
                      String.substring k (String.length s - k) s)).
    f_equal. apply IH. lia.
Qed.

Lemma endswith_append (s suffix : string) :
  endswith s suffix = true -> exists pre, s = pre +:+ suffix.
Proof.
  unfold endswith. intros [Hle Heq]%andb_true_iff.
  apply Nat.leb_le in Hle. apply String.eqb_eq in Heq.
  exists (String.substring 0 (String.length s - String.length suffix) s).
  pose proof (substring_split s (String.length s - String.length suffix))
    as Hs.
  replace (String.length s - (String.length s - String.length suffix))%nat
    with (String.length suffix) in Hs by lia.
  rewrite Heq in Hs. apply Hs. lia.
Qed.

Lemma list_ascii_of_append (a b : string) :
  String.list_ascii_of_string (a +:+ b) =
    String.list_ascii_of_string a ++ String.list_ascii_of_string b.
Proof. induction a as [| c a IH]; simpl; [reflexivity | now rewrite IH]. Qed.

(** Two suffixes of one path agree from the end backwards. *)
Lemma endswith_clash (path s1 s2 : string) :
  endswith path s1 = true -> endswith path s2 = true ->
  exists l1 l2,
    rev (String.list_ascii_of_string s1) ++ l1 =
    rev (String.list_ascii_of_string s2) ++ l2.
Proof.
  intros [p1 H1]%endswith_append [p2 H2]%endswith_append.
  exists (rev (String.list_ascii_of_string p1)), (rev (String.list_ascii_of_string p2)).
  rewrite <- !rev_app_distr, <- !list_ascii_of_append. congruence.
Qed.

Ltac suffix_clash H1 H2 :=
  destruct (endswith_clash _ _ _ H1 H2) as (? & ? & Hclash);
  cbn in Hclash; discriminate Hclash.

Lemma endswith_types_not_api path :
  endswith path "types.ts" = true -> endswith path "api.ts" = false.
Proof.
  intros H1. destruct (endswith path "api.ts") eqn:H2; [| reflexivity].
  suffix_clash H1 H2.
Qed.

Lemma endswith_components_not_api path :
  endswith path "components/" = true -> endswith path "api.ts" = false.
Proof.
  intros H1. destruct (endswith path "api.ts") eqn:H2; [| reflexivity].
  suffix_clash H1 H2.
Qed.

Lemma endswith_components_not_types path :
  endswith path "components/" = true -> endswith path "types.ts" = false.
Proof.
  intros H1. destruct (endswith path "types.ts") eqn:H2; [| reflexivity].
  suffix_clash H1 H2.
Qed.

Section CreateHookProperties.

Variable exists_ : string -> bool.

(** C6, as the hook has it: of the creations of a file that already
    exists, [before_create_file] refuses only that of a path ending in
    api.ts by feature-logic-implementer; the creation of an existing
    types.ts by that agent is let through with a warning, and that of an
    existing components/ directory is let through silently.  The hook
    raises in no other case. *)
Theorem before_create_file_duplicates agent file_path :
  (exists_ file_path = true -> endswith file_path "api.ts" = true ->
   before_create_file exists_ "feature-logic-implementer" file_path =
     Raise forbidden_create_api) /\
  (exists_ file_path = true -> endswith file_path "types.ts" = true ->
   before_create_file exists_ "feature-logic-implementer" file_path =
     Ok [warning_extend_types]) /\
  (exists_ file_path = true -> endswith file_path "components/" = true ->
   before_create_file exists_ "feature-logic-implementer" file_path =
     Ok []) /\
  (forall msg,
   before_create_file exists_ agent file_path = Raise msg ->
   msg = forbidden_create_api /\
   agent = "feature-logic-implementer" /\
   endswith file_path "api.ts" = true /\
   exists_ file_path = true).
Proof.
  split; [| split; [| split]].
  - intros He Ha. unfold before_create_file. now rewrite Ha, He.
  - intros He Ht. unfold before_create_file.
    now rewrite (endswith_types_not_api _ Ht), Ht, He.
  - intros He Hc. unfold before_create_file.
    now rewrite (endswith_components_not_api _ Hc),
      (endswith_components_not_types _ Hc).
  - intros msg. unfold before_create_file.
    destruct (endswith file_path "api.ts"), (exists_ file_path),
      (String.eqb agent "feature-logic-implementer") eqn:Hagent;
      cbn; intros Hraise; try discriminate Hraise.
    apply String.eqb_eq in Hagent. injection Hraise as <-. auto.
Qed.

End CreateHookProperties.

(** C6 refuted as stated: feature-logic-implementer creating an existing
    types.ts gets a warning and no error, and creating an existing
    components/ directory gets neither. *)
Lemma before_create_file_types_counterexample :
  all_files "app/time-slots/types.ts" = true /\
  before_create_file all_files "feature-logic-implementer"
    "app/time-slots/types.ts" = Ok [warning_extend_types] /\
  all_files "app/time-slots/components/" = true /\
  before_create_file all_files "feature-logic-implementer"
    "app/time-slots/components/" = Ok [].
Proof. repeat split; reflexivity. Qed.

(** An existing api.ts is refused, an existing types.ts is not. *)
Lemma before_create_file_duplicates_witness :
  before_create_file all_files "feature-logic-implementer"
    "app/time-slots/api.ts" = Raise forbidden_create_api /\
  before_create_file all_files "feature-logic-implementer"
    "app/time-slots/types.ts" = Ok [warning_extend_types].
Proof.
  destruct (before_create_file_duplicates all_files
              "feature-logic-implementer" "app/time-slots/api.ts")
    as (Hapi & _).
  destruct (before_create_file_duplicates all_files
              "feature-logic-implementer" "app/time-slots/types.ts")
    as (_ & Htypes & _).
  split; [apply Hapi | apply Htypes]; reflexivity.
Defined.

(** ** Conflict prevention: signatures *)

Lemma dict_get_keys (d : signatures) (k : string) :
  In k (dict_keys d) -> exists v, dict_get d k = Some v.
Proof.
  induction d as [| [k' v'] d IH]; cbn; [tauto |].
  intros [-> | Hin].
  - rewrite String.eqb_refl. eauto.
  - destruct (String.eqb k' k); eauto.
Qed.

(** The loop returns normally exactly when every visited name has the
    same entry in both tables. *)
Lemma check_signatures_ok (names : list string) (original modified : signatures) :
  (forall k, In k names -> exists v, dict_get original k = Some v) ->
  check_signatures names original modified = Ok tt <->
  (forall k, In k names -> dict_get modified k = dict_get original k).
Proof.
  induction names as [| f names IH]; intros Hdom; cbn [check_signatures].
  - split; [intros _ k [] | reflexivity].
  - destruct (Hdom f (or_introl eq_refl)) as [o Ho]. rewrite Ho.
    assert (Hdom' : forall k, In k names ->
                      exists v, dict_get original k = Some v)
      by (intros k Hk; apply Hdom; now right).
    specialize (IH Hdom').
    destruct (dict_get modified f) as [m |] eqn:Hm.
    + destruct (String.eqb o m) eqn:Hom; cbn [negb].
      * apply String.eqb_eq in Hom. subst m. rewrite IH. split.
        -- intros Hall k [<- | Hk]; [congruence | now apply Hall].
        -- intros Hall k Hk. apply Hall. now right.
      * apply String.eqb_neq in Hom. split; [discriminate |].
        intros Hall. specialize (Hall f (or_introl eq_refl)). congruence.
    + split; [discriminate |].
      intros Hall. specialize (Hall f (or_introl eq_refl)). congruence.
Qed.

(** An error of the loop is about a visited name: it was removed, or its
    signature differs. *)
Lemma check_signatures_raise (names : list string)
    (original modified : signatures) (msg : string) :
  (forall k, In k names -> exists v, dict_get original k = Some v) ->
  check_signatures names original modified = Raise msg ->
  exists f o,
    In f names /\ dict_get original f = Some o /\
    ((dict_get modified f = None /\ msg = removed_error f) \/
     (exists m, dict_get modified f = Some m /\ m <> o /\
                msg = changed_error f o m)).
Proof.
  induction names as [| f names IH]; intros Hdom; cbn [check_signatures].
  - discriminate.
  - destruct (Hdom f (or_introl eq_refl)) as [o Ho]. rewrite Ho.
    destruct (dict_get modified f) as [m |] eqn:Hm.
    + destruct (String.eqb o m) eqn:Hom; cbn [negb].
      * intros Hr. destruct IH as (g & og & Hg & Hog & Hcase); auto.
        { intros k Hk. apply Hdom. now right. }
        exists g, og. split; [now right | auto].
      * apply String.eqb_neq in Hom. intros [= <-].
        exists f, o. split; [now left |]. split; [assumption |].
        right. exists m. split; [assumption |]. split; congruence.
    + intros [= <-]. exists f, o. split; [now left |]. tauto.
Qed.

Section SignatureProperties.

Variable extract_function_signatures : string -> signatures.

(** C9: when the signature table after the modification has the same
    entries as the one before, [verify_api_signature_unchanged] returns
    without raising any error. *)
Theorem verify_api_signature_unchanged_same original_api modified_api :
  (forall func_name,
     dict_get (extract_function_signatures modified_api) func_name =
     dict_get (extract_function_signatures original_api) func_name) ->
  verify_api_signature_unchanged extract_function_signatures
    original_api modified_api = Ok tt.
Proof.
  intros Hsame. unfold verify_api_signature_unchanged.
  apply check_signatures_ok.
  - intros k Hk. now apply dict_get_keys.
  - intros k _. apply Hsame.
Qed.

(** C2, as the check has it: when the modified api.ts has a function
    that the original has not, [verify_api_signature_unchanged] still
    returns normally exactly when every original function is present
    with its original signature; an error it raises is about an original
    function, removed or with another signature, never about the added
    one. *)
Theorem verify_api_signature_ignores_added original_api modified_api added :
  dict_get (extract_function_signatures modified_api) added <> None ->
  dict_get (extract_function_signatures original_api) added = None ->
  (verify_api_signature_unchanged extract_function_signatures
     original_api modified_api = Ok tt <->
   forall func_name,
     In func_name (dict_keys (extract_function_signatures original_api)) ->
     dict_get (extract_function_signatures modified_api) func_name =
     dict_get (extract_function_signatures original_api) func_name) /\
  (forall msg,
   verify_api_signature_unchanged extract_function_signatures
     original_api modified_api = Raise msg ->
   exists func_name original,
     func_name <> added /\
     dict_get (extract_function_signatures original_api) func_name
       = Some original /\
     ((dict_get (extract_function_signatures modified_api) func_name = None
       /\ msg = removed_error func_name) \/
      (exists modified,
         dict_get (extract_function_signatures modified_api) func_name
           = Some modified /\
         modified <> original /\
         msg = changed_error func_name original modified))).
Proof.
  intros _ Hnew. unfold verify_api_signature_unchanged. split.
  - apply check_signatures_ok. intros k Hk. now apply dict_get_keys.
  - intros msg Hr.
    apply check_signatures_raise in Hr as (f & o & Hf & Ho & Hcase).
    + exists f, o. split; [congruence | auto].
    + intros k Hk. now apply dict_get_keys.
Qed.

End SignatureProperties.

(** The same two functions in another order pass the check. *)
Lemma verify_api_signature_unchanged_same_witness :
  verify_api_signature_unchanged api_versions "original" "reordered" = Ok tt.
Proof.
  apply verify_api_signature_unchanged_same.
  intros func_name.
  let t := eval vm_compute in (api_versions "reordered") in
  change (api_versions "reordered") with t.
  let t := eval vm_compute in (api_versions "original") in
  change (api_versions "original") with t.
  cbn [dict_get].
  destruct (String.eqb "createTimeSlot" func_name) eqn:Hc,
    (String.eqb "getTimeSlots" func_name) eqn:Hg; try reflexivity.
  apply String.eqb_eq in Hc, Hg. congruence.
Defined.

(** C2 refuted as stated: the modified api.ts adds [deleteTimeSlot] and
    keeps the two original functions; the check raises nothing. *)
Lemma verify_api_signature_added_counterexample :
  dict_get (api_versions "original") "deleteTimeSlot" = None /\
  dict_get (api_versions "extended") "deleteTimeSlot"
    = Some "(id: string): Promise<void>" /\
  verify_api_signature_unchanged api_versions "original" "extended" = Ok tt.
Proof. repeat split; reflexivity. Qed.

(** The added [deleteTimeSlot] does not make the check fail. *)
Lemma verify_api_signature_ignores_added_witness :
  verify_api_signature_unchanged api_versions "original" "extended" = Ok tt.
Proof.
  apply (proj1 (verify_api_signature_ignores_added api_versions
                  "original" "extended" "deleteTimeSlot"
                  ltac:(discriminate) eq_refl)).
  intros func_name [<- | [<- | []]]; reflexivity.
Defined.

(** ** Metrics *)

Lemma increment_same (key : string) (metrics : gmap string Z) :
  increment key metrics !!! key = (metrics !!! key + 1)%Z.
Proof. unfold increment. apply lookup_total_insert_eq. Qed.

Lemma increment_other (key other : string) (metrics : gmap string Z) :
  key <> other -> increment key metrics !!! other = metrics !!! other.
Proof. intros Hne. unfold increment. now apply lookup_total_insert_ne. Qed.

Lemma increment_le (key other : string) (metrics : gmap string Z) :
  (metrics !!! other <= increment key metrics !!! other)%Z.
Proof.
  destruct (decide (key = other)) as [-> | Hne].
  - rewrite increment_same. lia.
  - rewrite increment_other by assumption. lia.
Qed.

Lemma routing_counters_not_total (key : string) :
  key ∈ routing_counters -> key <> "total_requests".
Proof.
  intros Hin ->. revert Hin. compute_done.
Qed.

(** The metrics after a call: [total_requests] and one routing counter
    have been incremented. *)
Lemma route_metrics exists_ extract_feature_path needs_ui_changes
    (metrics : gmap string Z) message context :
  exists key,
    key ∈ routing_counters /\
    counter_of (route_request exists_ extract_feature_path needs_ui_changes
                  message context) = Some key /\
    snd (route exists_ extract_feature_path needs_ui_changes
           metrics message context) =
      increment key (increment "total_requests" metrics).
Proof.
  unfold route. cbn [snd].
  destruct (route_request_range exists_ extract_feature_path
              needs_ui_changes message context) as [Hd | [Hd | Hd]];
    rewrite Hd.
  - exists "routed_to_ui". repeat split. compute_done.
  - exists "routed_to_backend". repeat split. compute_done.
  - exists "blocked_missing_prerequisites". repeat split. compute_done.
Qed.

Lemma route_monotone exists_ extract_feature_path needs_ui_changes
    (metrics : gmap string Z) message context (key : string) :
  (metrics !!! key <=
   snd (route exists_ extract_feature_path needs_ui_changes
          metrics message context) !!! key)%Z.
Proof.
  destruct (route_metrics exists_ extract_feature_path needs_ui_changes
              metrics message context) as (k & _ & _ & ->).
  etransitivity; [| apply increment_le]. apply increment_le.
Qed.

Lemma route_all_monotone extract_feature_path needs_ui_changes
    (calls : list Call) :
  forall (metrics : gmap string Z) (key : string),
  (metrics !!! key <=
   route_all extract_feature_path needs_ui_changes metrics calls !!! key)%Z.
Proof.
  induction calls as [| c calls IH]; intros metrics key; cbn [route_all].
  - lia.
  - etransitivity; [| apply IH]. apply route_monotone.
Qed.

Lemma route_all_total extract_feature_path needs_ui_changes
    (calls : list Call) :
  forall metrics : gmap string Z,
  route_all extract_feature_path needs_ui_changes metrics calls
    !!! "total_requests" =
  (metrics !!! "total_requests" + Z.of_nat (length calls))%Z.
Proof.
  induction calls as [| c calls IH]; intros metrics; cbn [route_all length].
  - lia.
  - rewrite IH.
    destruct (route_metrics (call_exists c) extract_feature_path
                needs_ui_changes metrics (call_message c) (call_context c))
      as (k & Hk & _ & ->).
    rewrite increment_other by now apply routing_counters_not_total.
    rewrite increment_same. lia.
Qed.

(** C7: a call to [route] adds one to [total_requests] and to exactly
    one of the five routing counters, and leaves every other counter as
    it was; hence no counter ever decreases, over one call or over any
    sequence of calls. *)
Theorem route_increments_exactly_one_counter
    exists_ extract_feature_path needs_ui_changes
    (metrics : gmap string Z) message context :
  let metrics' :=
    snd (route exists_ extract_feature_path needs_ui_changes
           metrics message context) in
  metrics' !!! "total_requests" = (metrics !!! "total_requests" + 1)%Z /\
  (exists key,
     key ∈ routing_counters /\
     metrics' !!! key = (metrics !!! key + 1)%Z /\
     forall other,
       other <> key -> other <> "total_requests" ->
       metrics' !!! other = metrics !!! other) /\
  (forall key, (metrics !!! key <= metrics' !!! key)%Z) /\
  (forall calls key,
     (metrics !!! key <=
      route_all extract_feature_path needs_ui_changes metrics calls
        !!! key)%Z) /\
  (forall calls,
     route_all extract_feature_path needs_ui_changes metrics calls
       !!! "total_requests" =
     (metrics !!! "total_requests" + Z.of_nat (length calls))%Z).
Proof.
  cbn zeta.
  destruct (route_metrics exists_ extract_feature_path needs_ui_changes
              metrics message context) as (k & Hk & _ & Hm).
  pose proof (routing_counters_not_total k Hk) as Hkt.
  split; [| split; [| split; [| split]]].
  - rewrite Hm, increment_other, increment_same by congruence. reflexivity.
  - exists k. split; [assumption |]. split.
    + rewrite Hm, increment_same, increment_other by congruence.
      reflexivity.
    + intros other Hok Hot.
      rewrite Hm, !increment_other by congruence. reflexivity.
  - intros key. apply route_monotone.
  - intros calls key. apply route_all_monotone.
  - intros calls. apply route_all_total.
Qed.

(** A blocked request on the initial table: one request counted, one
    block counted. *)
Example route_blocked_metrics :
  route no_files path_of_context never_ui_changes METRICS
    "Supabase 쿼리 구현해줘" time_slots =
  ("error:missing_ui_foundation",
   <["blocked_missing_prerequisites" := 1%Z]>
     (<["total_requests" := 1%Z]> METRICS)).
Proof. vm_compute. reflexivity. Qed.

(** The first request on the initial table. *)
Lemma route_increments_exactly_one_counter_witness :
  snd (route no_files path_of_context never_ui_changes METRICS
         "시간 거래 기능 만들어줘" time_slots) !!! "total_requests" = 1%Z /\
  (METRICS !!! "routed_to_ui" <=
   snd (route no_files path_of_context never_ui_changes METRICS
          "시간 거래 기능 만들어줘" time_slots) !!! "routed_to_ui")%Z.
Proof.
  pose proof (route_increments_exactly_one_counter
                no_files path_of_context never_ui_changes METRICS
                "시간 거래 기능 만들어줘" time_slots)
    as (Htotal & _ & Hmono & _).
  split; [exact Htotal | apply Hmono].
Defined.

(** * Further properties of the rules and hooks *)

(** ** Substring and suffix tests *)

Lemma prefix_append (s t : string) : String.prefix s (s +:+ t) = true.
Proof.
  induction s as [| c s IH]; simpl.
  - now destruct t.
  - destruct (Ascii.ascii_dec c c) as [_ | Hne]; [exact IH | congruence].
Qed.

(** A string that occurs somewhere in another is found by [contains]. *)
Lemma contains_append (needle pre post : string) :
  contains needle (pre +:+ needle +:+ post) = true.
Proof.
  induction pre as [| c pre IH].
  - change ("" +:+ needle +:+ post) with (needle +:+ post).
    destruct (needle +:+ post) eqn:Heq; cbn [contains];
      rewrite <- Heq, prefix_append; reflexivity.
  - change (String c pre +:+ needle +:+ post)
      with (String c (pre +:+ needle +:+ post)).
    cbn [contains]. rewrite IH. apply orb_true_r.
Qed.

Lemma length_append (a b : string) :
  String.length (a +:+ b) = (String.length a + String.length b)%nat.
Proof. induction a as [| c a IH]; simpl; [reflexivity | now rewrite IH]. Qed.

Lemma substring_append_skip (a b : string) :
  String.substring (String.length a) (String.length b) (a +:+ b) = b.
Proof.
  induction a as [| c a IH]; simpl; [apply substring_all | exact IH].
Qed.

(** A string ends with whatever was appended to it last. *)
Lemma endswith_appended (pre suffix : string) :
  endswith (pre +:+ suffix) suffix = true.
Proof.
  unfold endswith. rewrite length_append.
  replace (String.length pre + String.length suffix - String.length suffix)%nat
    with (String.length pre) by lia.
  rewrite substring_append_skip, String.eqb_refl, andb_true_r.
  apply Nat.leb_le. lia.
Qed.

(** ** Rule #2: the prerequisite test *)

Lemma can_run_is_ui_complete (exists_ : string -> bool) feature_path :
  can_run_feature_logic_implementer exists_ feature_path =
    ui_complete (check_existing_files exists_ feature_path) /\
  can_run_feature_logic_implementer exists_ feature_path =
    fst (verify_prerequisites exists_ "feature-logic-implementer"
           feature_path).
Proof.
  unfold can_run_feature_logic_implementer, verify_prerequisites,
    check_existing_files.
  cbn [all_required_exist ui_complete String.eqb Ascii.eqb Bool.eqb].
  destruct (exists_ (feature_path +:+ "/types.ts")),
    (exists_ (feature_path +:+ "/api.ts")),
    (exists_ (feature_path +:+ "/components/")); split; reflexivity.
Qed.

(** X1: the stand-alone prerequisite test of Rule #2 agrees with the
    router: [can_run_feature_logic_implementer] is the [ui_complete]
    entry of [check_existing_files], and it is the flag that
    [verify_prerequisites] returns for feature-logic-implementer. *)
Theorem can_run_agrees_with_router (exists_ : string -> bool) feature_path :
  can_run_feature_logic_implementer exists_ feature_path =
    ui_complete (check_existing_files exists_ feature_path) /\
  can_run_feature_logic_implementer exists_ feature_path =
    fst (verify_prerequisites exists_ "feature-logic-implementer"
           feature_path).
Proof. exact (can_run_is_ui_complete exists_ feature_path). Qed.

(** ** Prevention #3: modification of interface files *)

Lemma scan_ui_directories_raise (dirs : list string) file_path msg :
  scan_ui_directories dirs file_path = Raise msg <->
  existsb (fun ui_dir => contains ui_dir file_path) dirs = true /\
  msg = forbidden_modify file_path.
Proof.
  induction dirs as [| d dirs IH]; cbn [scan_ui_directories existsb].
  - split; [discriminate | intros [? _]; discriminate].
  - destruct (contains d file_path); cbn [orb]; [| exact IH].
    split; [intros [= <-]; auto | intros [_ ->]; reflexivity].
Qed.

Lemma before_modify_file_raise agent file_path msg :
  before_modify_file agent file_path = Raise msg <->
  agent = "feature-logic-implementer" /\
  (contains "/components/" file_path = true \/
   contains "/page.tsx" file_path = true \/
   contains "/layout.tsx" file_path = true) /\
  msg = forbidden_modify file_path.
Proof.
  unfold before_modify_file.
  destruct (String.eqb_spec agent "feature-logic-implementer") as [-> | Hne].
  - rewrite scan_ui_directories_raise. cbn [existsb ui_directories].
    rewrite orb_false_r, !orb_true_iff. tauto.
  - split; [discriminate | intros [? _]; contradiction].
Qed.

(** X2: [before_modify_file] raises exactly when the agent is
    feature-logic-implementer and the path contains /components/,
    /page.tsx or /layout.tsx, and the error is the one that names the
    path. *)
Theorem before_modify_file_raises_iff agent file_path msg :
  before_modify_file agent file_path = Raise msg <->
  agent = "feature-logic-implementer" /\
  (contains "/components/" file_path = true \/
   contains "/page.tsx" file_path = true \/
   contains "/layout.tsx" file_path = true) /\
  msg = forbidden_modify file_path.
Proof. apply before_modify_file_raise. Qed.

(** X3: whatever precedes and follows it in the path, one of the three
    interface directories anywhere in the path makes
    [before_modify_file] refuse feature-logic-implementer; so every file
    under the components/ directory of every feature is refused. *)
Theorem before_modify_file_refuses_ui_paths ui_dir pre post :
  In ui_dir ui_directories ->
  before_modify_file "feature-logic-implementer"
    (pre +:+ ui_dir +:+ post) =
    Raise (forbidden_modify (pre +:+ ui_dir +:+ post)).
Proof.
  intros Hin. apply before_modify_file_raise.
  split; [reflexivity |]. split; [| reflexivity].
  destruct Hin as [<- | [<- | [<- | []]]]; rewrite contains_append; auto.
Qed.

(** ** The hooks and other agents *)

(** X4: the hooks and the prerequisite test restrict
    feature-logic-implementer alone: for every other agent name,
    ui-implementer or not, creation and modification are let through
    without a warning and the prerequisites hold. *)
Theorem hooks_restrict_implementer_only (exists_ : string -> bool)
    agent file_path :
  agent <> "feature-logic-implementer" ->
  before_create_file exists_ agent file_path = Ok [] /\
  before_modify_file agent file_path = Ok tt /\
  verify_prerequisites exists_ agent file_path = (true, "").
Proof.
  intros Hne%String.eqb_neq.
  unfold before_create_file, before_modify_file, verify_prerequisites.
  rewrite Hne.
  destruct (endswith file_path "api.ts"), (endswith file_path "types.ts"),
    (exists_ file_path); auto.
Qed.

(** X5: [before_create_file] lets every agent create, without a warning,
    a file that does not exist yet, and a file whose path ends neither
    in api.ts nor in types.ts. *)
Theorem before_create_file_new_file (exists_ : string -> bool)
    agent file_path :
  exists_ file_path = false \/
  (endswith file_path "api.ts" = false /\
   endswith file_path "types.ts" = false) ->
  before_create_file exists_ agent file_path = Ok [].
Proof.
  unfold before_create_file. intros [-> | [-> ->]]; [| reflexivity].
  destruct (endswith file_path "api.ts"), (endswith file_path "types.ts");
    reflexivity.
Qed.

(** X6: the protection of api.ts is by suffix of the path, not by file
    name: feature-logic-implementer is refused the creation of any
    existing file whose path ends in the six characters api.ts,
    whatever precedes them. *)
Theorem before_create_file_suffix_match (exists_ : string -> bool) pre :
  exists_ (pre +:+ "api.ts") = true ->
  before_create_file exists_ "feature-logic-implementer" (pre +:+ "api.ts")
    = Raise forbidden_create_api.
Proof.
  intros He. unfold before_create_file.
  now rewrite endswith_appended, He.
Qed.

(** ** The decision table of the classifier *)

(** X7: the class of a message is decided by three tests.  A message
    with an interface keyword and no backend keyword is [ui_only], and
    one with a backend keyword and no interface keyword is
    [backend_only], whether or not it asks for a modification; the
    modification markers only count when both kinds of keyword occur or
    neither does. *)
Theorem classify_request_table message :
  (classify_request message = "ui_only" <->
     has_ui message = true /\ has_backend message = false) /\
  (classify_request message = "backend_only" <->
     has_backend message = true /\ has_ui message = false) /\
  (classify_request message = "modify_existing" <->
     has_ui message = has_backend message /\
     has_modify_marker message = true) /\
  (classify_request message = "full_feature" <->
     has_ui message = has_backend message /\
     has_modify_marker message = false).
Proof.
  unfold classify_request, has_ui, has_backend, has_modify_marker.
  destruct (existsb _ ui_keywords), (existsb _ backend_keywords),
    (contains "수정" message || contains "추가" message); cbn;
    repeat split; try congruence; intros [? ?]; congruence.
Qed.

(** ** The decision table of the router *)

Section RoutingTable.

Variable exists_ : string -> bool.
Variable extract_feature_path : string -> gmap string string -> string.
Variable needs_ui_changes : string -> bool.

Ltac route_table :=
  match goal with
  | |- context [route_request _ _ _ ?m ?c] =>
      destruct (classify_request_range m) as [Hc | [Hc | [Hc | Hc]]];
      [ rewrite (route_ui_only exists_ extract_feature_path
                   needs_ui_changes m c Hc)
      | rewrite (route_backend_only exists_ extract_feature_path
                   needs_ui_changes m c Hc)
      | rewrite (route_modify_existing exists_ extract_feature_path
                   needs_ui_changes m c Hc)
      | rewrite (route_full_feature exists_ extract_feature_path
                   needs_ui_changes m c Hc) ];
      rewrite Hc
  end.

(** X8: while a foundation file is missing, the router sends a request
    to feature-logic-implementer only if it is a [modify_existing]
    request that needs no interface change; it blocks exactly the
    [backend_only] requests and sends every other request to
    ui-implementer. *)
Theorem route_request_incomplete_foundation message context :
  foundation_complete exists_ extract_feature_path message context = false ->
  let decision :=
    route_request exists_ extract_feature_path needs_ui_changes
      message context in
  (decision = "feature-logic-implementer" <->
     classify_request message = "modify_existing" /\
     needs_ui_changes message = false) /\
  (decision = "error:missing_ui_foundation" <->
     classify_request message = "backend_only") /\
  (decision = "ui-implementer" <->
     classify_request message = "ui_only" \/
     classify_request message = "full_feature" \/
     (classify_request message = "modify_existing" /\
      needs_ui_changes message = true)).
Proof.
  intros Hf. cbn zeta. route_table; rewrite ?Hf;
    try destruct (needs_ui_changes message);
    (split; [| split]); (split; [try discriminate; intros _; auto |]);
    try (intros [? ?]; congruence); try congruence;
    try (intros [? | [? | [? ?]]]; congruence).
Qed.

(** X9: once the three foundation files exist, the router blocks
    nothing; it sends the [ui_only] requests and the [modify_existing]
    requests that need an interface change to ui-implementer, and every
    other request to feature-logic-implementer. *)
Theorem route_request_complete_foundation message context :
  foundation_complete exists_ extract_feature_path message context = true ->
  let decision :=
    route_request exists_ extract_feature_path needs_ui_changes
      message context in
  is_blocked decision = false /\
  (decision = "ui-implementer" <->
     classify_request message = "ui_only" \/
     (classify_request message = "modify_existing" /\
      needs_ui_changes message = true)) /\
  (decision = "feature-logic-implementer" <->
     classify_request message = "full_feature" \/
     classify_request message = "backend_only" \/
     (classify_request message = "modify_existing" /\
      needs_ui_changes message = false)).
Proof.
  intros Hf. cbn zeta. route_table; rewrite ?Hf;
    try destruct (needs_ui_changes message);
    (split; [reflexivity | split]);
    (split; [try discriminate; intros _; auto |]);
    try (intros [? | [? ?]]; congruence);
    try (intros [? | [? | [? ?]]]; congruence).
Qed.

(** X10: the router and the prerequisite test agree on every request
    that is not [modify_existing]: when the router blocks, the
    prerequisites of feature-logic-implementer fail on the feature of
    the request, and when it assigns such a request to
    feature-logic-implementer they hold. *)
Theorem route_request_agrees_with_prerequisites message context :
  let decision :=
    route_request exists_ extract_feature_path needs_ui_changes
      message context in
  let check :=
    verify_prerequisites exists_ "feature-logic-implementer"
      (extract_feature_path message context) in
  (is_blocked decision = true -> fst check = false) /\
  (decision = "feature-logic-implementer" ->
   classify_request message <> "modify_existing" ->
   check = (true, "")).
Proof.
  cbn zeta. unfold verify_prerequisites.
  cbn [String.eqb Ascii.eqb Bool.eqb].
  change (ui_complete
            (check_existing_files exists_
               (extract_feature_path message context)))
    with (foundation_complete exists_ extract_feature_path message context).
  route_table;
    try destruct (needs_ui_changes message);
    destruct (foundation_complete _ _ _ _); cbn;
    split; intros; try reflexivity; congruence.
Qed.

End RoutingTable.

(** X11: the router looks at the three foundation paths of the feature
    and at nothing else: two file systems that agree on them get the
    same decision and the same prerequisite verdict. *)
Theorem route_request_reads_foundation_only
    (exists_a exists_b : string -> bool)
    extract_feature_path needs_ui_changes message context agent :
  let feature_path := extract_feature_path message context in
  exists_a (feature_path +:+ "/types.ts")
    = exists_b (feature_path +:+ "/types.ts") ->
  exists_a (feature_path +:+ "/api.ts")
    = exists_b (feature_path +:+ "/api.ts") ->
  exists_a (feature_path +:+ "/components/")
    = exists_b (feature_path +:+ "/components/") ->
  route_request exists_a extract_feature_path needs_ui_changes
    message context =
  route_request exists_b extract_feature_path needs_ui_changes
    message context /\
  verify_prerequisites exists_a agent feature_path =
  verify_prerequisites exists_b agent feature_path.
Proof.
  cbn zeta. intros Ht Ha Hc.
  unfold route_request, verify_prerequisites, check_existing_files.
  cbn [ui_complete types_exists api_exists components_exist].
  now rewrite Ht, Ha, Hc.
Qed.

(** ** Completion, then prerequisites *)

(** X12: the hand-over from ui-implementer to feature-logic-implementer
    is sound: once [verify_completion] accepts the work of
    ui-implementer on a feature, the prerequisites of
    feature-logic-implementer hold there, and the router sends every
    [full_feature] and [backend_only] request on that feature to
    feature-logic-implementer. *)
Theorem completion_enables_implementer
    (exists_ : string -> bool) (read_file : string -> string)
    extract_feature_path needs_ui_changes feature_path :
  fst (verify_completion exists_ read_file "ui-implementer" feature_path)
    = true ->
  verify_prerequisites exists_ "feature-logic-implementer" feature_path
    = (true, "") /\
  can_run_feature_logic_implementer exists_ feature_path = true /\
  (forall message context,
     extract_feature_path message context = feature_path ->
     classify_request message = "full_feature" \/
     classify_request message = "backend_only" ->
     route_request exists_ extract_feature_path needs_ui_changes
       message context = "feature-logic-implementer").
Proof.
  rewrite verify_completion_flag, verify_ui_completion_flag.
  intros [[[Ht Ha]%andb_true_iff Hc]%andb_true_iff _]%andb_true_iff.
  assert (Hui : ui_complete (check_existing_files exists_ feature_path)
                = true)
    by (cbn [check_existing_files ui_complete]; now rewrite Ht, Ha, Hc).
  split; [| split].
  - unfold verify_prerequisites. cbn [String.eqb Ascii.eqb Bool.eqb].
    now rewrite Hui.
  - now rewrite (proj1 (can_run_is_ui_complete exists_ feature_path)).
  - intros message context Hpath [Hclass | Hclass].
    + rewrite (route_full_feature _ _ _ _ _ Hclass).
      unfold foundation_complete. now rewrite Hpath, Hui.
    + rewrite (route_backend_only _ _ _ _ _ Hclass).
      unfold foundation_complete. now rewrite Hpath, Hui.
Qed.

(** X13: when [verify_completion] rejects the work of ui-implementer,
    its message names the defects and only them: types.ts and
    components/ when they are absent, api.ts when it is absent or lacks
    the integration-point marker, and the missing markers exactly when
    api.ts exists without them. *)
Theorem verify_completion_names_defects
    (exists_ : string -> bool) (read_file : string -> string) feature_path :
  let types := exists_ (feature_path +:+ "/types.ts") in
  let api := exists_ (feature_path +:+ "/api.ts") in
  let components := exists_ (feature_path +:+ "/components/") in
  let marker :=
    contains integration_marker (read_file (feature_path +:+ "/api.ts")) in
  types && api && components && marker = false ->
  exists msg,
    verify_completion exists_ read_file "ui-implementer" feature_path
      = (false, msg) /\
    contains "types.ts" msg = negb types /\
    contains "components/" msg = negb components /\
    contains "api.ts" msg = negb (api && marker) /\
    contains "missing TODO markers" msg = api && negb marker.
Proof.
  cbn zeta. unfold verify_completion, verify_ui_completion.
  cbn [String.eqb Ascii.eqb Bool.eqb].
  destruct (exists_ (feature_path +:+ "/types.ts")),
    (exists_ (feature_path +:+ "/api.ts")),
    (exists_ (feature_path +:+ "/components/")),
    (contains integration_marker (read_file (feature_path +:+ "/api.ts")));
    intros Hdefect; try discriminate Hdefect;
    eexists; (split; [reflexivity |]); vm_compute; auto.
Qed.

(** ** Prevention #2 over successive modifications *)

Lemma dict_get_In_keys (d : signatures) (k v : string) :
  dict_get d k = Some v -> In k (dict_keys d).
Proof.
  induction d as [| [k' v'] d IH]; cbn; [discriminate |].
  destruct (String.eqb_spec k' k) as [-> | Hne]; auto.
Qed.

Lemma dict_get_app_fresh (pre post : signatures) (k : string) :
  ~ In k (dict_keys pre) -> dict_get (pre ++ post) k = dict_get post k.
Proof.
  induction pre as [| [k' v'] pre IH]; cbn; [reflexivity |].
  intros Hfresh. destruct (String.eqb_spec k' k) as [-> | Hne]; [tauto |].
  apply IH. tauto.
Qed.

(** Names whose entries agree are passed over by the loop. *)
Lemma check_signatures_skip (names rest : list string)
    (original modified : signatures) :
  (forall k, In k names ->
     exists v, dict_get original k = Some v /\ dict_get modified k = Some v) ->
  check_signatures (names ++ rest) original modified =
    check_signatures rest original modified.
Proof.
  induction names as [| f names IH]; intros Hsame; [reflexivity |].
  cbn [app check_signatures].
  destruct (Hsame f (or_introl eq_refl)) as (v & -> & ->).
  rewrite String.eqb_refl. cbn [negb].
  apply IH. intros k Hk. apply Hsame. now right.
Qed.

Section SignatureChains.

Variable extract_function_signatures : string -> signatures.

(** X14: the check composes: if a second version of api.ts passes
    against the first and a third passes against the second, the third
    passes against the first. *)
Theorem verify_api_signature_unchanged_trans first second third :
  verify_api_signature_unchanged extract_function_signatures first second
    = Ok tt ->
  verify_api_signature_unchanged extract_function_signatures second third
    = Ok tt ->
  verify_api_signature_unchanged extract_function_signatures first third
    = Ok tt.
Proof.
  unfold verify_api_signature_unchanged.
  rewrite !check_signatures_ok by (intros k Hk; now apply dict_get_keys).
  intros H12 H23 k Hk.
  destruct (dict_get_keys _ _ Hk) as [v Hv].
  rewrite <- (H12 k Hk). apply H23.
  apply dict_get_In_keys with v. now rewrite (H12 k Hk).
Qed.

(** X15: the error is that of the first original function, in the order
    of the original table, that is missing or has another signature:
    when the functions before it are unchanged, a missing function is
    reported as removed and a function with another signature as
    changed, with both signatures in the message. *)
Theorem verify_api_signature_first_violation
    original_api modified_api before func_name original after :
  extract_function_signatures original_api =
    before ++ (func_name, original) :: after ->
  ~ In func_name (dict_keys before) ->
  (forall name, In name (dict_keys before) ->
     dict_get (extract_function_signatures modified_api) name =
     dict_get (extract_function_signatures original_api) name) ->
  dict_get (extract_function_signatures modified_api) func_name
    <> Some original ->
  verify_api_signature_unchanged extract_function_signatures
    original_api modified_api =
    Raise match dict_get (extract_function_signatures modified_api)
                  func_name with
          | None => removed_error func_name
          | Some modified => changed_error func_name original modified
          end.
Proof.
  intros Horig Hfresh Hsame Hdiff. unfold verify_api_signature_unchanged.
  assert (Hget : dict_get (extract_function_signatures original_api)
                   func_name = Some original).
  { rewrite Horig, dict_get_app_fresh by assumption.
    cbn. now rewrite String.eqb_refl. }
  replace (dict_keys (extract_function_signatures original_api))
    with (dict_keys before ++ func_name :: dict_keys after)
    by (rewrite Horig; unfold dict_keys; now rewrite map_app).
  rewrite check_signatures_skip.
  - cbn [check_signatures]. rewrite Hget.
    destruct (dict_get (extract_function_signatures modified_api) func_name)
      as [modified |]; [| reflexivity].
    destruct (String.eqb_spec original modified) as [-> | Hne];
      [congruence | reflexivity].
  - intros k Hk.
    assert (Hk' : In k (dict_keys (extract_function_signatures original_api))).
    { rewrite Horig. unfold dict_keys in *. rewrite map_app.
      apply in_or_app. now left. }
    destruct (dict_get_keys _ _ Hk') as [v Hv].
    exists v. split; [assumption |]. now rewrite Hsame.
Qed.

(** X16: no removal and no change of signature goes unnoticed: if some
    function of the original api.ts is missing from the modified one or
    has another signature there, the check raises an error. *)
Theorem verify_api_signature_detects_change
    original_api modified_api func_name original :
  dict_get (extract_function_signatures original_api) func_name
    = Some original ->
  dict_get (extract_function_signatures modified_api) func_name
    <> Some original ->
  exists msg,
    verify_api_signature_unchanged extract_function_signatures
      original_api modified_api = Raise msg.
Proof.
  intros Hget Hdiff.
  destruct (verify_api_signature_unchanged extract_function_signatures
              original_api modified_api) as [[] | msg] eqn:Hres; [| eauto].
  exfalso. apply Hdiff. rewrite <- Hget.
  unfold verify_api_signature_unchanged in Hres.
  rewrite check_signatures_ok in Hres
    by (intros k Hk; now apply dict_get_keys).
  apply Hres. now apply dict_get_In_keys with original.
Qed.

End SignatureChains.

(** ** Modify, do not replace *)

(** X17: feature-logic-implementer may modify an existing api.ts but not
    create it anew: for an existing path that ends in api.ts and contains
    none of the interface directories, [before_create_file] raises and
    [before_modify_file] lets the modification through. *)
Theorem implementer_modifies_but_not_creates_api
    (exists_ : string -> bool) file_path :
  exists_ file_path = true ->
  endswith file_path "api.ts" = true ->
  existsb (fun ui_dir => contains ui_dir file_path) ui_directories = false ->
  before_create_file exists_ "feature-logic-implementer" file_path
    = Raise forbidden_create_api /\
  before_modify_file "feature-logic-implementer" file_path = Ok tt.
Proof.
  intros He Hs Hui. split.
  - unfold before_create_file. now rewrite Hs, He.
  - destruct (before_modify_file "feature-logic-implementer" file_path)
      as [[] | msg] eqn:Hres; [reflexivity |].
    apply before_modify_file_raise in Hres as (_ & Hdir & _).
    cbn [existsb ui_directories] in Hui.
    rewrite orb_false_r, !orb_false_iff in Hui.
    destruct Hui as (H1 & H2 & H3), Hdir as [H | [H | H]]; congruence.
Qed.

(** ** The further properties at concrete inputs *)

(** The example of the document: a form under components/. *)
Lemma before_modify_file_raises_iff_witness :
  before_modify_file "feature-logic-implementer"
    "app/time-slots/components/TimeSlotForm.tsx" =
  Raise (forbidden_modify "app/time-slots/components/TimeSlotForm.tsx").
Proof.
  apply (proj2 (before_modify_file_raises_iff _ _ _)).
  split; [reflexivity |]. split; [left |]; reflexivity.
Defined.

(** The page of a feature. *)
Lemma before_modify_file_refuses_ui_paths_witness :
  before_modify_file "feature-logic-implementer"
    ("app/time-slots" +:+ "/page.tsx" +:+ "") =
  Raise (forbidden_modify ("app/time-slots" +:+ "/page.tsx" +:+ "")).
Proof.
  apply before_modify_file_refuses_ui_paths. right; left; reflexivity.
Defined.

(** ui-implementer replacing an existing api.ts. *)
Lemma hooks_restrict_implementer_only_witness :
  before_create_file all_files "ui-implementer" "app/time-slots/api.ts"
    = Ok [] /\
  before_modify_file "ui-implementer" "app/time-slots/api.ts" = Ok tt /\
  verify_prerequisites all_files "ui-implementer" "app/time-slots/api.ts"
    = (true, "").
Proof.
  apply hooks_restrict_implementer_only. discriminate.
Defined.

(** feature-logic-implementer creating an api.ts that does not exist. *)
Lemma before_create_file_new_file_witness :
  before_create_file no_files "feature-logic-implementer"
    "app/time-slots/api.ts" = Ok [].
Proof.
  apply before_create_file_new_file. left; reflexivity.
Defined.

(** A service file whose name merely ends in api.ts. *)
Lemma before_create_file_suffix_match_witness :
  before_create_file all_files "feature-logic-implementer"
    ("lib/services/open" +:+ "api.ts") = Raise forbidden_create_api.
Proof.
  apply before_create_file_suffix_match. reflexivity.
Defined.

(** A request to modify the interface is [ui_only] all the same. *)
Lemma classify_request_table_witness :
  classify_request "로그인 폼 UI 수정해줘" = "ui_only".
Proof.
  apply (proj2 (proj1 (classify_request_table "로그인 폼 UI 수정해줘"))).
  split; reflexivity.
Defined.

(** A new feature on an empty directory goes to ui-implementer. *)
Lemma route_request_incomplete_foundation_witness :
  route_request no_files path_of_context never_ui_changes
    "시간 거래 기능 만들어줘" time_slots = "ui-implementer".
Proof.
  destruct (route_request_incomplete_foundation
              no_files path_of_context never_ui_changes
              "시간 거래 기능 만들어줘" time_slots eq_refl)
    as (_ & _ & Hui).
  apply Hui. right; left; reflexivity.
Defined.

(** The same request once the foundation exists. *)
Lemma route_request_complete_foundation_witness :
  route_request all_files path_of_context never_ui_changes
    "시간 거래 기능 만들어줘" time_slots = "feature-logic-implementer".
Proof.
  destruct (route_request_complete_foundation
              all_files path_of_context never_ui_changes
              "시간 거래 기능 만들어줘" time_slots eq_refl)
    as (_ & _ & Hlogic).
  apply Hlogic. left; reflexivity.
Defined.

(** Test case 2 of the document: backend first. *)
Lemma route_request_agrees_with_prerequisites_witness :
  fst (verify_prerequisites no_files "feature-logic-implementer"
         (path_of_context "Supabase 인증 로직 구현해줘" auth)) = false.
Proof.
  apply (proj1 (route_request_agrees_with_prerequisites
                  no_files path_of_context never_ui_changes
                  "Supabase 인증 로직 구현해줘" auth)).
  reflexivity.
Defined.

(** Files of app/time-slots do not matter to a request on app/auth. *)
Lemma route_request_reads_foundation_only_witness :
  route_request only_auth path_of_context never_ui_changes
    "Supabase 인증 로직 구현해줘" auth =
  route_request auth_and_time_slots path_of_context never_ui_changes
    "Supabase 인증 로직 구현해줘" auth.
Proof.
  apply (route_request_reads_foundation_only
           only_auth auth_and_time_slots path_of_context never_ui_changes
           "Supabase 인증 로직 구현해줘" auth "feature-logic-implementer");
    reflexivity.
Defined.

(** A completed foundation with its markers. *)
Lemma completion_enables_implementer_witness :
  verify_prerequisites all_files "feature-logic-implementer"
    "app/time-slots" = (true, "") /\
  route_request all_files path_of_context never_ui_changes
    "Supabase 쿼리 구현해줘" time_slots = "feature-logic-implementer".
Proof.
  destruct (completion_enables_implementer
              all_files api_with_marker path_of_context never_ui_changes
              "app/time-slots" eq_refl) as (Hpre & _ & Hroute).
  split; [exact Hpre |].
  apply Hroute; [reflexivity | right; reflexivity].
Defined.

(** Test case 3 of the document: only types.ts was created. *)
Lemma verify_completion_names_defects_witness :
  exists msg,
    verify_completion only_types api_without_marker "ui-implementer"
      "app/auth" = (false, msg) /\
    contains "api.ts" msg = true /\
    contains "components/" msg = true.
Proof.
  destruct (verify_completion_names_defects
              only_types api_without_marker "app/auth" eq_refl)
    as (msg & Hres & _ & Hcomp & Hapi & _).
  exists msg. split; [exact Hres |]. split; [exact Hapi | exact Hcomp].
Defined.

(** Reordering, then adding a function. *)
Lemma verify_api_signature_unchanged_trans_witness :
  verify_api_signature_unchanged api_versions "original" "extended" = Ok tt.
Proof.
  apply (verify_api_signature_unchanged_trans api_versions
           "original" "reordered" "extended"); reflexivity.
Defined.

(** The example of the document: the parameters of [createTimeSlot]
    replaced. *)
Lemma verify_api_signature_first_violation_witness :
  verify_api_signature_unchanged api_revisions "original" "retyped" =
  Raise (changed_error "createTimeSlot"
           "(input: TimeSlotInput): Promise<TimeSlot>"
           "(title: string, duration: number): Promise<TimeSlot>").
Proof.
  apply (verify_api_signature_first_violation api_revisions
           "original" "retyped"
           [("getTimeSlots", "(): Promise<TimeSlot[]>")]
           "createTimeSlot" "(input: TimeSlotInput): Promise<TimeSlot>" []).
  - reflexivity.
  - cbn. intros [H | []]. discriminate H.
  - intros name [<- | []]. reflexivity.
  - vm_compute. discriminate.
Defined.

(** A renamed function is a removed one. *)
Lemma verify_api_signature_detects_change_witness :
  exists msg,
    verify_api_signature_unchanged api_revisions "original" "renamed"
      = Raise msg.
Proof.
  apply (verify_api_signature_detects_change api_revisions
           "original" "renamed" "getTimeSlots" "(): Promise<TimeSlot[]>").
  - reflexivity.
  - vm_compute. discriminate.
Defined.

(** The api.ts of the time-slots feature. *)
Lemma implementer_modifies_but_not_creates_api_witness :
  before_create_file all_files "feature-logic-implementer"
    "app/time-slots/api.ts" = Raise forbidden_create_api /\
  before_modify_file "feature-logic-implementer" "app/time-slots/api.ts"
    = Ok tt.
Proof.
  apply implementer_modifies_but_not_creates_api; reflexivity.
Defined.
